(** * Rocket contrib: the [UUID] request-parameter adapter (src/contrib/src/uuid.rs)

    The adapter wraps a value of the external [uuid] crate ([uuid_ext::Uuid])
    and forwards parsing, formatting, equality and ordering to that crate.
    The crate is not part of this repository, so its operations are kept
    abstract: they are the variables of the section [Adapter] below, and every
    theorem about the adapter holds for every implementation of them. *)

From Stdlib Require Import String Ascii List Bool NArith.
Import ListNotations.
Open Scope string_scope.

(** Rust's [Result<T, E>]. *)
Inductive result (T E : Type) : Type :=
| Ok : T -> result T E
| Err : E -> result T E.
Arguments Ok {T E} _.
Arguments Err {T E} _.

Definition is_ok {T E} (r : result T E) : bool :=
  match r with Ok _ => true | Err _ => false end.

(** [Result::map_err]. *)
Definition map_err {T E F} (op : E -> F) (r : result T E) : result T F :=
  match r with
  | Ok t => Ok t
  | Err e => Err (op e)
  end.

(** Rocket's [RawStr]: an unsized wrapper around [str]; [as_str] (and the
    [Deref<Target = str>] used by [param.parse()]) gives the inner string. *)
Record RawStr : Type := mkRawStr { as_str : string }.

Section Adapter.

(** The external [uuid] crate, as the adapter uses it. *)
Context {Uuid : Type}.
(** [uuid_ext::ParseError], re-exported as [UuidParseError]. *)
Context {UuidParseError : Type}.
(** [<uuid_ext::Uuid as FromStr>::from_str], i.e. [s.parse::<Uuid>()]. *)
Variable uuid_parse : string -> result Uuid UuidParseError.
(** [<uuid_ext::Uuid as Display>::fmt], rendered to a string. *)
Variable uuid_fmt : Uuid -> string.
(** [<uuid_ext::Uuid as PartialEq>::eq]. *)
Variable uuid_eq : Uuid -> Uuid -> bool.
(** [<uuid_ext::Uuid as Ord>::cmp]. *)
Variable uuid_cmp : Uuid -> Uuid -> comparison.

(** [pub struct UUID(uuid_ext::Uuid);] *)
Record UUID : Type := mkUUID { UUID_0 : Uuid }.

(** [#[derive(PartialEq)]]: field-wise equality. *)
Definition UUID_eq (a b : UUID) : bool := uuid_eq (UUID_0 a) (UUID_0 b).

(** [#[derive(Ord)]] on a one-field tuple struct: lexicographic over the
    single field, i.e. the field's [cmp]. *)
Definition UUID_cmp (a b : UUID) : comparison := uuid_cmp (UUID_0 a) (UUID_0 b).

(** [UUID::into_inner(self) -> uuid_ext::Uuid { self.0 }] *)
Definition into_inner (self : UUID) : Uuid := UUID_0 self.

(** [impl fmt::Display for UUID]: [self.0.fmt(f)]. *)
Definition to_string (self : UUID) : string := uuid_fmt (UUID_0 self).

(** [impl FromStr for UUID]: [Ok(UUID(try!(s.parse())))]; the [From]
    conversion applied by [try!] is the identity, both error types being
    [UuidParseError]. *)
Definition from_str (s : string) : result UUID UuidParseError :=
  match uuid_parse s with
  | Ok u => Ok (mkUUID u)
  | Err e => Err e
  end.

(** [impl FromParam for UUID]: [param.parse()], i.e. [UUID::from_str] on
    the string behind the [RawStr]. *)
Definition from_param (param : RawStr) : result UUID UuidParseError :=
  from_str (as_str param).

(** [impl FromFormValue for UUID]:
    [form_value.parse().map_err(|_| form_value)]. *)
Definition from_form_value (form_value : RawStr) : result UUID RawStr :=
  map_err (fun _ => form_value) (from_str (as_str form_value)).

(** [impl Deref for UUID]: [&self.0]. *)
Definition deref (self : UUID) : Uuid := UUID_0 self.

(** [impl PartialEq<uuid_ext::Uuid> for UUID]: [self.0.eq(other)]. *)
Definition eq_uuid (self : UUID) (other : Uuid) : bool := uuid_eq (UUID_0 self) other.

End Adapter.

(** ** An instance of the library interface

    A small concrete implementation of the four [uuid_ext] operations, used
    only to run the adapter (and the theorems below) on concrete strings:
    a UUID is a number, the accepted text is exactly 32 hexadecimal digits,
    and any other length is refused with the offending length. *)
Module Sample.

Inductive ParseError : Type :=
| InvalidLength : nat -> ParseError
| InvalidCharacter : ascii -> nat -> ParseError.

Definition hex_val (c : ascii) : option N :=
  let n := N.of_nat (nat_of_ascii c) in
  if ((48 <=? n) && (n <=? 57))%N then Some (n - 48)%N
  else if ((97 <=? n) && (n <=? 102))%N then Some (n - 87)%N
  else if ((65 <=? n) && (n <=? 70))%N then Some (n - 55)%N
  else None.

Fixpoint parse_hex (acc : N) (i : nat) (s : string) : result N ParseError :=
  match s with
  | EmptyString => Ok acc
  | String c rest =>
      match hex_val c with
      | Some d => parse_hex (acc * 16 + d)%N (S i) rest
      | None => Err (InvalidCharacter c i)
      end
  end.

Definition parse (s : string) : result N ParseError :=
  if Nat.eqb (String.length s) 32 then parse_hex 0%N 0 s
  else Err (InvalidLength (String.length s)).

(** Lowercase hexadecimal, 32 digits, most significant first. *)
Definition hex_char (d : N) : ascii :=
  ascii_of_N (if (d <? 10)%N then 48 + d else 87 + d)%N.

Fixpoint fmt_hex (k : nat) (v : N) : string :=
  match k with
  | O => EmptyString
  | S k' => fmt_hex k' (v / 16)%N ++ String (hex_char (v mod 16)%N) EmptyString
  end.

Definition fmt (v : N) : string := fmt_hex 32 v.

Definition eqb : N -> N -> bool := N.eqb.
Definition cmp : N -> N -> comparison := N.compare.
End Sample.

(** ** Delegation properties, for every implementation of the library *)
Section Properties.

Context {Uuid UuidParseError : Type}.
Variable uuid_parse : string -> result Uuid UuidParseError.
Variable uuid_eq : Uuid -> Uuid -> bool.
Variable uuid_cmp : Uuid -> Uuid -> comparison.

(** [uuid_ext::Uuid: Eq]: the contract of Rust's [Eq] trait is that [==]
    is reflexive (the crate derives it from byte equality). *)
Hypothesis uuid_eq_refl : forall u, uuid_eq u u = true.

Lemma from_str_ok (s : string) (w : UUID) :
  from_str uuid_parse s = Ok w <-> uuid_parse s = Ok (UUID_0 w).
Proof.
  unfold from_str; destruct (uuid_parse s) as [u|e]; split; intro H;
    try discriminate.
  - inversion H; subst; reflexivity.
  - inversion H; subst; destruct w; reflexivity.
Qed.

Lemma from_str_err (s : string) (e : UuidParseError) :
  from_str uuid_parse s = Err e <-> uuid_parse s = Err e.
Proof.
  unfold from_str; destruct (uuid_parse s); split; intro H;
    try discriminate; inversion H; reflexivity.
Qed.

(** C4: whenever parsing fails, [from_form_value] returns the original raw
    form value, unchanged, as its error. *)
Theorem from_form_value_err_echo (s : RawStr) (e : UuidParseError) :
  from_str uuid_parse (as_str s) = Err e ->
  from_form_value uuid_parse s = Err s.
Proof.
  intro H. unfold from_form_value. rewrite H. reflexivity.
Qed.

(** C5: [from_param] fails with error [e] exactly when the library's parse
    of the same text fails with [e]: the library's [ParseError] is passed
    through unchanged. *)
Theorem from_param_err_passthrough (p : RawStr) (e : UuidParseError) :
  from_param uuid_parse p = Err e <-> uuid_parse (as_str p) = Err e.
Proof.
  unfold from_param. apply from_str_err.
Qed.

(** C7: when [from_str s] succeeds, [into_inner] of its result is the
    library's direct parse of [s]. *)
Theorem into_inner_from_str (s : string) (w : UUID) :
  from_str uuid_parse s = Ok w -> uuid_parse s = Ok (into_inner w).
Proof.
  intro H. apply from_str_ok in H. exact H.
Qed.

(** C8: a wrapper parsed from [s] is [==] to the library's parse [u] of
    [s]; and in general [w == u] holds iff the wrapped value is [==] to
    [u]. *)
Theorem eq_uuid_from_str (s : string) (w : UUID) (u : Uuid) :
  from_str uuid_parse s = Ok w -> uuid_parse s = Ok u ->
  eq_uuid uuid_eq w u = true /\
  (forall (w' : UUID) (u' : Uuid),
      eq_uuid uuid_eq w' u' = true <-> uuid_eq (UUID_0 w') u' = true).
Proof.
  intros Hw Hu. split.
  - apply from_str_ok in Hw. rewrite Hw in Hu. injection Hu as <-.
    unfold eq_uuid. apply uuid_eq_refl.
  - intros w' u'. reflexivity.
Qed.

(** C9: the derived [Ord] on parsed wrappers gives the same ordering as
    the library's [cmp] on the direct parses. *)
Theorem cmp_from_str (a b : string) (wa wb : UUID) (ua ub : Uuid) :
  from_str uuid_parse a = Ok wa -> from_str uuid_parse b = Ok wb ->
  uuid_parse a = Ok ua -> uuid_parse b = Ok ub ->
  UUID_cmp uuid_cmp wa wb = uuid_cmp ua ub.
Proof.
  intros Ha Hb Hua Hub.
  apply from_str_ok in Ha. apply from_str_ok in Hb.
  rewrite Ha in Hua. rewrite Hb in Hub.
  injection Hua as <-. injection Hub as <-. reflexivity.
Qed.

(** C10: [from_param], [from_form_value] and [from_str] agree on every
    input: all three succeed with the same value, or all three fail. *)
Theorem entry_points_agree (p : RawStr) :
  (exists v, from_param uuid_parse p = Ok v /\
             from_form_value uuid_parse p = Ok v /\
             from_str uuid_parse (as_str p) = Ok v) \/
  (is_ok (from_param uuid_parse p) = false /\
   is_ok (from_form_value uuid_parse p) = false /\
   is_ok (from_str uuid_parse (as_str p)) = false).
Proof.
  unfold from_param, from_form_value.
  destruct (from_str uuid_parse (as_str p)) as [v|e].
  - left. exists v. auto.
  - right. auto.
Qed.

End Properties.

(** ** The adapter run on the sample library *)

Definition sample_simple : string := "c1aa1e3b961448959ebd705255fa5bc2".
Definition sample_simple_value : N := 0xc1aa1e3b961448959ebd705255fa5bc2%N.
Definition sample_other : string := "00000000000000000000000000000001".
Definition sample_bad : RawStr := mkRawStr "c1aa1e3b-9614-4895-9ebd-705255fa5bc2p".

Example sample_from_str_ok :
  from_str Sample.parse sample_simple = Ok (mkUUID sample_simple_value).
Proof. vm_compute. reflexivity. Qed.

Example sample_from_form_value_bad :
  from_form_value Sample.parse sample_bad = Err sample_bad.
Proof. vm_compute. reflexivity. Qed.

Lemma from_form_value_err_echo_witness :
  from_str Sample.parse (as_str sample_bad) = Err (Sample.InvalidLength 37) /\
  from_form_value Sample.parse sample_bad = Err sample_bad.
Proof.
  assert (H : from_str Sample.parse (as_str sample_bad) = Err (Sample.InvalidLength 37))
    by (vm_compute; reflexivity).
  split; [exact H | exact (from_form_value_err_echo Sample.parse sample_bad _ H)].
Defined.

Lemma into_inner_from_str_witness :
  from_str Sample.parse sample_simple = Ok (mkUUID sample_simple_value) /\
  Sample.parse sample_simple = Ok (into_inner (mkUUID sample_simple_value)).
Proof.
  assert (H : from_str Sample.parse sample_simple = Ok (mkUUID sample_simple_value))
    by (vm_compute; reflexivity).
  split; [exact H | exact (into_inner_from_str Sample.parse sample_simple _ H)].
Defined.

Lemma eq_uuid_from_str_witness :
  (forall u, Sample.eqb u u = true) /\
  from_str Sample.parse sample_simple = Ok (mkUUID sample_simple_value) /\
  Sample.parse sample_simple = Ok sample_simple_value /\
  eq_uuid Sample.eqb (mkUUID sample_simple_value) sample_simple_value = true.
Proof.
  assert (Hr : forall u, Sample.eqb u u = true) by exact N.eqb_refl.
  assert (Hw : from_str Sample.parse sample_simple = Ok (mkUUID sample_simple_value))
    by (vm_compute; reflexivity).
  assert (Hu : Sample.parse sample_simple = Ok sample_simple_value)
    by (vm_compute; reflexivity).
  split; [exact Hr|]. split; [exact Hw|]. split; [exact Hu|].
  exact (proj1 (eq_uuid_from_str Sample.parse Sample.eqb Hr sample_simple _ _ Hw Hu)).
Defined.

Lemma cmp_from_str_witness :
  from_str Sample.parse sample_simple = Ok (mkUUID sample_simple_value) /\
  from_str Sample.parse sample_other = Ok (mkUUID 1%N) /\
  Sample.parse sample_simple = Ok sample_simple_value /\
  Sample.parse sample_other = Ok 1%N /\
  UUID_cmp Sample.cmp (mkUUID sample_simple_value) (mkUUID 1%N)
  = Sample.cmp sample_simple_value 1%N.
Proof.
  assert (Ha : from_str Sample.parse sample_simple = Ok (mkUUID sample_simple_value))
    by (vm_compute; reflexivity).
  assert (Hb : from_str Sample.parse sample_other = Ok (mkUUID 1%N))
    by (vm_compute; reflexivity).
  assert (Hua : Sample.parse sample_simple = Ok sample_simple_value)
    by (vm_compute; reflexivity).
  assert (Hub : Sample.parse sample_other = Ok 1%N)
    by (vm_compute; reflexivity).
  split; [exact Ha|]. split; [exact Hb|]. split; [exact Hua|]. split; [exact Hub|].
  exact (cmp_from_str Sample.parse Sample.cmp _ _ _ _ _ _ Ha Hb Hua Hub).
Defined.

(** ** Further properties of the adapter, for every implementation of the library *)
Section Extras.

Context {Uuid UuidParseError : Type}.
Variable uuid_parse : string -> result Uuid UuidParseError.
Variable uuid_fmt : Uuid -> string.
Variable uuid_eq : Uuid -> Uuid -> bool.
Variable uuid_cmp : Uuid -> Uuid -> comparison.

(** The text round trip through the wrapper holds for [w] exactly when the
    library's own round trip holds for the wrapped value: the wrapper adds
    nothing to, and removes nothing from, [Display] followed by [FromStr]. *)
Theorem round_trip_iff_library (w : UUID) :
  from_str uuid_parse (to_string uuid_fmt w) = Ok w <->
  uuid_parse (uuid_fmt (into_inner w)) = Ok (into_inner w).
Proof.
  unfold to_string, into_inner. apply from_str_ok.
Qed.

(** Rendering a wrapper obtained from [s] gives the library's rendering of
    the library's direct parse of [s] (what [test_from_str] and
    [test_from_param] compare against the input). *)
Theorem to_string_from_str (s : string) (w : UUID) :
  from_str uuid_parse s = Ok w ->
  exists u, uuid_parse s = Ok u /\ to_string uuid_fmt w = uuid_fmt u.
Proof.
  intro H. apply from_str_ok in H. exists (UUID_0 w). split; [exact H | reflexivity].
Qed.

(** The derived [==] on two parsed wrappers is the library's [==] on the
    direct parses of the same two strings. *)
Theorem eq_from_str (a b : string) (wa wb : UUID) (ua ub : Uuid) :
  from_str uuid_parse a = Ok wa -> from_str uuid_parse b = Ok wb ->
  uuid_parse a = Ok ua -> uuid_parse b = Ok ub ->
  UUID_eq uuid_eq wa wb = uuid_eq ua ub.
Proof.
  intros Ha Hb Hua Hub.
  apply from_str_ok in Ha. apply from_str_ok in Hb.
  rewrite Ha in Hua. rewrite Hb in Hub.
  inversion Hua. inversion Hub. reflexivity.
Qed.

(** [from_form_value] succeeds with [w] exactly when the library parses the
    raw form value to the value wrapped by [w]. *)
Theorem from_form_value_ok (p : RawStr) (w : UUID) :
  from_form_value uuid_parse p = Ok w <-> uuid_parse (as_str p) = Ok (into_inner w).
Proof.
  unfold from_form_value, into_inner. rewrite <- from_str_ok.
  destruct (from_str uuid_parse (as_str p)); simpl; split; intro H;
    try discriminate; inversion H; reflexivity.
Qed.

(** [#[derive(Ord)]] keeps the order laws of the library's [cmp]: if the
    library's ordering is antisymmetric and transitive, so is the
    wrapper's. *)
Theorem UUID_cmp_order_laws
  (Hanti : forall x y, uuid_cmp y x = CompOpp (uuid_cmp x y))
  (Htrans : forall x y z, uuid_cmp x y = Lt -> uuid_cmp y z = Lt -> uuid_cmp x z = Lt) :
  (forall a b : UUID, UUID_cmp uuid_cmp b a = CompOpp (UUID_cmp uuid_cmp a b)) /\
  (forall a b c : UUID, UUID_cmp uuid_cmp a b = Lt -> UUID_cmp uuid_cmp b c = Lt ->
                        UUID_cmp uuid_cmp a c = Lt).
Proof.
  unfold UUID_cmp. split.
  - intros a b. apply Hanti.
  - intros a b c. apply Htrans.
Qed.

End Extras.

Lemma to_string_from_str_witness :
  from_str Sample.parse sample_simple = Ok (mkUUID sample_simple_value) /\
  exists u, Sample.parse sample_simple = Ok u /\
            to_string Sample.fmt (mkUUID sample_simple_value) = Sample.fmt u.
Proof.
  assert (H : from_str Sample.parse sample_simple = Ok (mkUUID sample_simple_value))
    by (vm_compute; reflexivity).
  split; [exact H | exact (to_string_from_str Sample.parse Sample.fmt _ _ H)].
Defined.

Example sample_round_trip :
  from_str Sample.parse (to_string Sample.fmt (mkUUID sample_simple_value))
  = Ok (mkUUID sample_simple_value).
Proof. vm_compute. reflexivity. Qed.

Lemma eq_from_str_witness :
  from_str Sample.parse sample_simple = Ok (mkUUID sample_simple_value) /\
  from_str Sample.parse sample_other = Ok (mkUUID 1%N) /\
  Sample.parse sample_simple = Ok sample_simple_value /\
  Sample.parse sample_other = Ok 1%N /\
  UUID_eq Sample.eqb (mkUUID sample_simple_value) (mkUUID 1%N)
  = Sample.eqb sample_simple_value 1%N.
Proof.
  assert (Ha : from_str Sample.parse sample_simple = Ok (mkUUID sample_simple_value))
    by (vm_compute; reflexivity).
  assert (Hb : from_str Sample.parse sample_other = Ok (mkUUID 1%N))
    by (vm_compute; reflexivity).
  assert (Hua : Sample.parse sample_simple = Ok sample_simple_value)
    by (vm_compute; reflexivity).
  assert (Hub : Sample.parse sample_other = Ok 1%N)
    by (vm_compute; reflexivity).
  split; [exact Ha|]. split; [exact Hb|]. split; [exact Hua|]. split; [exact Hub|].
  exact (eq_from_str Sample.parse Sample.eqb _ _ _ _ _ _ Ha Hb Hua Hub).
Defined.

Lemma UUID_cmp_order_laws_witness :
  (forall x y, Sample.cmp y x = CompOpp (Sample.cmp x y)) /\
  (forall x y z, Sample.cmp x y = Lt -> Sample.cmp y z = Lt -> Sample.cmp x z = Lt) /\
  (forall a b : @UUID N, UUID_cmp Sample.cmp b a = CompOpp (UUID_cmp Sample.cmp a b)).
Proof.
  assert (Ha : forall x y, Sample.cmp y x = CompOpp (Sample.cmp x y))
    by (intros x y; apply N.compare_antisym).
  assert (Ht : forall x y z, Sample.cmp x y = Lt -> Sample.cmp y z = Lt -> Sample.cmp x z = Lt).
  { unfold Sample.cmp. intros x y z Hxy Hyz.
    apply N.compare_lt_iff in Hxy. apply N.compare_lt_iff in Hyz.
    apply N.compare_lt_iff. exact (N.lt_trans _ _ _ Hxy Hyz). }
  split; [exact Ha|]. split; [exact Ht|].
  exact (proj1 (UUID_cmp_order_laws Sample.cmp Ha Ht)).
Defined.
